(** * Class-level properties of the jsii Python runtime

    A shallow embedding of [jsii/python.py]: the descriptor
    [_ClassProperty], the entry points [class_property] / [classproperty]
    and the metaclass [_ClassPropertyMeta], together with the fragment of
    the Python object model these forty lines run on (attribute lookup
    along the MRO, the binding rules of functions, [classmethod] and
    [staticmethod], attribute assignment on classes and on instances).

    Python objects that are mutable or have an identity (classes,
    instances, descriptors) live in a heap; immutable callables are
    values.  Code of the program's users (getters and setters) is a table
    of functions acting on the heap; every time such a function is
    entered, the interpreter appends the call to a log. *)

From stdpp Require Import gmap strings list fin_maps.
From Stdlib Require Import ZArith.

Open Scope string_scope.

(** ** Values and heap objects *)

Definition loc := nat.
Definition fid := nat.

(** The type objects of the host language that [type(x)] can answer with. *)
Inductive builtin :=
| NoneType_t | int_t | function_t | method_t | classmethod_t
| staticmethod_t | type_t | ClassProperty_t | ClassPropertyMeta_t.

Inductive val :=
| VNone
| VInt (z : Z)
| VFunc (f : fid)                 (* a plain function, [def f(...)] *)
| VClassmethod (callable : val)   (* [classmethod(callable)] *)
| VStaticmethod (callable : val)  (* [staticmethod(callable)] *)
| VMethod (func self : val)       (* a bound method *)
| VType (b : builtin)
| VRef (l : loc).

(** The metaclass of a user class: plain [type], or [_ClassPropertyMeta]. *)
Inductive metaclass := MetaType | MetaClassProperty.

Inductive object :=
| OClassProperty (fget fset : val)
| OClass (meta : metaclass) (mro : list loc) (dict : gmap string val)
| OInstance (cls : loc) (dict : gmap string val).

Inductive exn :=
| AttributeError (msg : string)
| TypeError (msg : string)
| OtherError (msg : string).

(** [Unsupported] marks the places where the program leaves the modelled
    fragment of Python (user classes with their own [__get__], [__call__]
    or [__bool__], calling a class, descriptors nested in descriptors). *)
Inductive outcome (A : Type) :=
| Return (a : A)
| Raise (e : exn)
| Unsupported.
Arguments Return {A} a.
Arguments Raise {A} e.
Arguments Unsupported {A}.

Record state := mkState {
  heap : gmap loc object;
  log : list (fid * list val)
}.

(** A user function: the number of its positional parameters and its
    body. *)
Record pyfunc := mkFunc {
  f_arity : nat;
  f_body : list val → gmap loc object → outcome val * gmap loc object
}.

(** ** The state-and-exception monad *)

Definition M (A : Type) : Type := state → outcome A * state.

Definition ret {A} (a : A) : M A := fun s => (Return a, s).
Definition raise {A} (e : exn) : M A := fun s => (Raise e, s).
Definition unsupported {A} : M A := fun s => (Unsupported, s).

Definition bind {A B} (m : M A) (k : A → M B) : M B := fun s =>
  match m s with
  | (Return a, s') => k a s'
  | (Raise e, s') => (Raise e, s')
  | (Unsupported, s') => (Unsupported, s')
  end.

Notation "'let!' x ':=' m 'in' k" := (bind m (fun x => k))
  (at level 10, x pattern, m at level 100, k at level 200).

Definition get_object (l : loc) : M object := fun s =>
  match heap s !! l with
  | Some o => (Return o, s)
  | None => (Unsupported, s)
  end.

Definition set_object (l : loc) (o : object) : M unit := fun s =>
  (Return tt, mkState (<[l := o]> (heap s)) (log s)).

(** ** The object model *)

(** [_PyType_Lookup]: the first class of the MRO whose dictionary has the
    name. *)
Fixpoint lookup_mro (h : gmap loc object) (mro : list loc) (name : string)
  : option val :=
  match mro with
  | [] => None
  | c :: rest =>
      match h !! c with
      | Some (OClass _ _ d) =>
          match d !! name with
          | Some v => Some v
          | None => lookup_mro h rest name
          end
      | _ => lookup_mro h rest name
      end
  end.

Definition type_lookup (h : gmap loc object) (cls : loc) (name : string)
  : option val :=
  match h !! cls with
  | Some (OClass _ mro _) => lookup_mro h mro name
  | _ => None
  end.

Definition meta_type (m : metaclass) : val :=
  match m with
  | MetaType => VType type_t
  | MetaClassProperty => VType ClassPropertyMeta_t
  end.

(** [type(v)] *)
Definition type_of (v : val) : M val :=
  match v with
  | VNone => ret (VType NoneType_t)
  | VInt _ => ret (VType int_t)
  | VFunc _ => ret (VType function_t)
  | VClassmethod _ => ret (VType classmethod_t)
  | VStaticmethod _ => ret (VType staticmethod_t)
  | VMethod _ _ => ret (VType method_t)
  | VType _ => ret (VType type_t)
  | VRef l =>
      let! o := get_object l in
      match o with
      | OClassProperty _ _ => ret (VType ClassProperty_t)
      | OClass m _ _ => ret (meta_type m)
      | OInstance c _ => ret (VRef c)
      end
  end.

(** Truth value of [v], as [if not v] tests it. *)
Definition truthy (v : val) : M bool :=
  match v with
  | VNone => ret false
  | VInt z => ret (negb (Z.eqb z 0))
  | VRef l => fun s =>
      match heap s !! l with
      | Some (OInstance c _) =>
          match type_lookup (heap s) c "__bool__",
                type_lookup (heap s) c "__len__" with
          | None, None => (Return true, s)
          | _, _ => (Unsupported, s)
          end
      | Some _ => (Return true, s)
      | None => (Unsupported, s)
      end
  | _ => ret true
  end.

(** [isinstance(func, (classmethod, staticmethod))] *)
Definition is_classmethod_or_staticmethod (v : val) : bool :=
  match v with
  | VClassmethod _ | VStaticmethod _ => true
  | _ => false
  end.

(** [isinstance(v, _ClassProperty)]: the descriptor's location, if so. *)
Definition as_ClassProperty (h : gmap loc object) (v : val) : option loc :=
  match v with
  | VRef l =>
      match h !! l with
      | Some (OClassProperty _ _) => Some l
      | _ => None
      end
  | _ => None
  end.

Section Program.

Variable funs : fid → pyfunc.

(** Entering a user function: the arity is checked, the call is logged,
    the body runs on the heap. *)
Definition call_function (g : fid) (args : list val) : M val := fun s =>
  if decide (length args = f_arity (funs g)) then
    let '(r, h') := f_body (funs g) args (heap s) in
    (r, mkState h' (log s ++ [(g, args)]))
  else (Raise (TypeError "wrong number of positional arguments"), s).

(** Calling [f] with the positional arguments [args]; a staticmethod
    object is callable (Python 3.10 and later), a classmethod object is
    not. *)
Fixpoint call (f : val) (args : list val) : M val :=
  match f with
  | VFunc g => call_function g args
  | VMethod func self => call func (self :: args)
  | VStaticmethod c => call c args
  | VClassmethod _ => raise (TypeError "'classmethod' object is not callable")
  | VNone => raise (TypeError "'NoneType' object is not callable")
  | VInt _ => raise (TypeError "'int' object is not callable")
  | VType _ => unsupported
  | VRef l => fun s =>
      match heap s !! l with
      | Some (OClassProperty _ _) =>
          (Raise (TypeError "'_ClassProperty' object is not callable"), s)
      | _ => (Unsupported, s)
      end
  end.

(** [f.__get__(obj, klass)] for the callables of the host language;
    [klass] is a class here, never [None].  A function binds to the
    accessing object and is returned as it is when there is none, a
    classmethod binds its callable to the class, a staticmethod hands out
    its callable, a bound method stays as it is. *)
Definition descr_get (f obj klass : val) : M val :=
  match f with
  | VFunc _ =>
      match obj with
      | VNone => ret f
      | _ => ret (VMethod f obj)
      end
  | VClassmethod c => ret (VMethod c klass)
  | VStaticmethod c => ret c
  | VMethod _ _ => ret f
  | VNone => raise (AttributeError "'NoneType' object has no attribute '__get__'")
  | VInt _ => raise (AttributeError "'int' object has no attribute '__get__'")
  | VType _ | VRef _ => unsupported
  end.

(** ** [class _ClassProperty] *)

Definition get_fget (self : loc) : M val :=
  let! o := get_object self in
  match o with
  | OClassProperty fget _ => ret fget
  | _ => unsupported
  end.

Definition get_fset (self : loc) : M val :=
  let! o := get_object self in
  match o with
  | OClassProperty _ fset => ret fset
  | _ => unsupported
  end.

Definition set_fset (self : loc) (v : val) : M unit :=
  let! o := get_object self in
  match o with
  | OClassProperty fget _ => set_object self (OClassProperty fget v)
  | _ => unsupported
  end.

(** [_ClassProperty(fget, fset)]: a new object, its two fields set by
    [__init__]. *)
Definition ClassProperty_new (fget fset : val) : M val := fun s =>
  let l := fresh (dom (heap s)) in
  (Return (VRef l), mkState (<[l := OClassProperty fget fset]> (heap s)) (log s)).

(** [if klass is None: klass = type(obj)] *)
Definition effective_class (obj klass : val) : M val :=
  match klass with
  | VNone => type_of obj
  | _ => ret klass
  end.

Definition ClassProperty__get__ (self : loc) (obj klass : val) : M val :=
  let! klass := effective_class obj klass in
  let! fget := get_fget self in
  let! bound := descr_get fget obj klass in
  call bound [klass].

Definition ClassProperty__set__ (self : loc) (obj value : val) : M val :=
  let! fset := get_fset self in
  let! t := truthy fset in
  if negb t then raise (AttributeError "Can't set attribute.")
  else
    let! klass := type_of obj in
    let! fset := get_fset self in
    let! bound := descr_get fset obj klass in
    call bound [value].

Definition ClassProperty_setter (self : loc) (func : val) : M val :=
  let func := if is_classmethod_or_staticmethod func then func
              else VClassmethod func in
  let! _ := set_fset self func in
  ret (VRef self).

Definition class_property (func : val) : M val :=
  ClassProperty_new func VNone.


(** ** Attribute access of the host language

    Attribute names range over the names a program gives its own
    attributes; the names that [type] and [object] define themselves
    ([__name__], [__dict__], ...) are not modelled. *)

(** The implicit [attr.__get__(obj, klass)] of an attribute found on a
    class; [obj] is [VNone] when the attribute is read from the class. *)
Definition invoke_get (attr obj klass : val) : M val :=
  match attr with
  | VNone | VInt _ | VType _ => ret attr
  | VFunc _ | VClassmethod _ | VStaticmethod _ | VMethod _ _ =>
      descr_get attr obj klass
  | VRef l =>
      let! o := get_object l in
      match o with
      | OClassProperty _ _ => ClassProperty__get__ l obj klass
      | OClass _ _ _ => ret attr
      | OInstance c _ => fun s =>
          match type_lookup (heap s) c "__get__" with
          | None => (Return attr, s)
          | Some _ => (Unsupported, s)
          end
      end
  end.

(** Whether the attribute found on a class is a data descriptor (its type
    defines [__set__]); [None] outside the modelled fragment. *)
Definition has_set (h : gmap loc object) (attr : val) : option bool :=
  match attr with
  | VRef l =>
      match h !! l with
      | Some (OClassProperty _ _) => Some true
      | Some (OClass _ _ _) => Some false
      | Some (OInstance c _) =>
          match type_lookup h c "__set__", type_lookup h c "__delete__" with
          | None, None => Some false
          | _, _ => None
          end
      | None => None
      end
  | _ => Some false
  end.

(** [type.__getattribute__(cls, name)], reading [cls.name]. *)
Definition type_getattribute (cls : loc) (name : string) : M val :=
  let! o := get_object cls in
  match o with
  | OClass _ mro _ => fun s =>
      match lookup_mro (heap s) mro name with
      | Some attr => invoke_get attr VNone (VRef cls) s
      | None => (Raise (AttributeError "type object has no such attribute"), s)
      end
  | _ => unsupported
  end.

(** [type.__setattr__(cls, name, value)]: the entry of the class's own
    dictionary is replaced. *)
Definition type_setattr (cls : loc) (name : string) (value : val) : M val :=
  let! o := get_object cls in
  match o with
  | OClass m mro d =>
      let! _ := set_object cls (OClass m mro (<[name := value]> d)) in
      ret VNone
  | _ => unsupported
  end.

(** [object.__getattribute__(inst, name)], reading [inst.name]. *)
Definition object_getattribute (inst : loc) (name : string) : M val :=
  let! o := get_object inst in
  match o with
  | OInstance c d => fun s =>
      match type_lookup (heap s) c "__getattribute__",
            type_lookup (heap s) c "__getattr__" with
      | None, None =>
          match type_lookup (heap s) c name with
          | Some attr =>
              match has_set (heap s) attr with
              | None => (Unsupported, s)
              | Some true => invoke_get attr (VRef inst) (VRef c) s
              | Some false =>
                  match d !! name with
                  | Some v => (Return v, s)
                  | None => invoke_get attr (VRef inst) (VRef c) s
                  end
              end
          | None =>
              match d !! name with
              | Some v => (Return v, s)
              | None => (Raise (AttributeError "object has no such attribute"), s)
              end
          end
      | _, _ => (Unsupported, s)
      end
  | _ => unsupported
  end.

(** [object.__setattr__(inst, name, value)], running [inst.name = value]. *)
Definition object_setattr (inst : loc) (name : string) (value : val) : M val :=
  let! o := get_object inst in
  match o with
  | OInstance c d => fun s =>
      match type_lookup (heap s) c "__setattr__" with
      | Some _ => (Unsupported, s)
      | None =>
          let store :=
            let! _ := set_object inst (OInstance c (<[name := value]> d)) in
            ret VNone in
          match type_lookup (heap s) c name with
          | Some attr =>
              match has_set (heap s) attr, as_ClassProperty (heap s) attr with
              | None, _ => (Unsupported, s)
              | Some true, Some l => ClassProperty__set__ l (VRef inst) value s
              | Some _, _ => store s
              end
          | None => store s
          end
      end
  | _ => unsupported
  end.

(** [getattr(o, name, default)]: an [AttributeError] of the lookup, the
    getter's own included, becomes the default. *)
Definition getattr_default (lookup : M val) (default : val) : M val := fun s =>
  match lookup s with
  | (Raise (AttributeError _), s') => (Return default, s')
  | r => r
  end.

(** ** [class _ClassPropertyMeta(type)] *)

Definition ClassPropertyMeta__setattr__ (self : loc) (key : string)
    (value : val) : M val :=
  let! obj := getattr_default (type_getattribute self key) VNone in
  fun s =>
    match as_ClassProperty (heap s) obj with
    | Some l => ClassProperty__set__ l (VRef self) value s
    | None => type_setattr self key value s
    end.

(** ** The statements [target.name = value] and the expression
    [target.name] *)

Definition py_setattr (target : val) (name : string) (value : val) : M val :=
  match target with
  | VRef l =>
      let! o := get_object l in
      match o with
      | OClass MetaClassProperty _ _ => ClassPropertyMeta__setattr__ l name value
      | OClass MetaType _ _ => type_setattr l name value
      | OInstance _ _ => object_setattr l name value
      | OClassProperty _ _ => unsupported
      end
  | _ => unsupported
  end.

Definition py_getattr (target : val) (name : string) : M val :=
  match target with
  | VRef l =>
      let! o := get_object l in
      match o with
      | OClass _ _ _ => type_getattribute l name
      | OInstance _ _ => object_getattribute l name
      | OClassProperty _ _ => unsupported
      end
  | _ => unsupported
  end.

End Program.

(** ** The words of the specification

    The read access as the specification describes it: the effective
    class is the class of the accessing object when one is supplied,
    otherwise the class given; the getter is called with it as its only
    argument. *)



(** ** A small program

<<
  def answer(cls): return 42
  def set_answer(cls, value): return None
  def set_other(cls, value): return None
  def shadow(cls): return <the descriptor of C.prop>
  def who(cls): return cls

  class C(metaclass=_ClassPropertyMeta):     # at 1
      prop = class_property(answer).setter(set_answer)   # at 2
  c = C()                                    # at 3
  class D(metaclass=_ClassPropertyMeta):     # at 4
      ro = class_property(answer)            # at 5
  d = D()                                    # at 6
  class B(metaclass=_ClassPropertyMeta):     # at 7
      me = class_property(staticmethod(who)) # at 8
  class E(metaclass=_ClassPropertyMeta):     # at 9
      sh = class_property(shadow)            # at 10
>> *)

Definition f_answer : fid := 0.
Definition f_set_answer : fid := 1.
Definition f_set_other : fid := 2.
Definition f_shadow : fid := 3.
Definition f_who : fid := 4.

Definition demo_funs (g : fid) : pyfunc :=
  match g with
  | 0 => mkFunc 1 (fun _ h => (Return (VInt 42), h))
  | 1 => mkFunc 2 (fun _ h => (Return VNone, h))
  | 2 => mkFunc 2 (fun _ h => (Return VNone, h))
  | 3 => mkFunc 1 (fun _ h => (Return (VRef 2), h))
  | 4 => mkFunc 1 (fun args h => (Return (default VNone (head args)), h))
  | _ => mkFunc 0 (fun _ h => (Return VNone, h))
  end.

Definition demo_heap : gmap loc object :=
  list_to_map
    [ (1, OClass MetaClassProperty [1] {[ "prop" := VRef 2 ]});
      (2, OClassProperty (VFunc f_answer) (VClassmethod (VFunc f_set_answer)));
      (3, OInstance 1 ∅);
      (4, OClass MetaClassProperty [4] {[ "ro" := VRef 5 ]});
      (5, OClassProperty (VFunc f_answer) VNone);
      (6, OInstance 4 ∅);
      (7, OClass MetaClassProperty [7] {[ "me" := VRef 8 ]});
      (8, OClassProperty (VStaticmethod (VFunc f_who)) VNone);
      (9, OClass MetaClassProperty [9] {[ "sh" := VRef 10 ]});
      (10, OClassProperty (VFunc f_shadow) VNone) ].

Definition demo : state := mkState demo_heap [].

Definition outcome_of {A} (r : outcome A * state) : outcome A := fst r.
Definition log_of {A} (r : outcome A * state) : list (fid * list val) :=
  log (snd r).
Definition heap_of {A} (r : outcome A * state) : gmap loc object :=
  heap (snd r).
(** The entry [name] of the own dictionary of the class at [cls]. *)
Definition class_entry (h : gmap loc object) (cls : loc) (name : string)
  : option val :=
  match h !! cls with
  | Some (OClass _ _ d) => d !! name
  | _ => None
  end.

(** ** A program with a subclass

<<
  class Base(metaclass=_ClassPropertyMeta):        # at 1
      rate = class_property(answer).setter(set_answer)   # at 2
      me = class_property(staticmethod(who))       # at 5
  class Sub(Base): pass                            # at 3
  sub = Sub(); sub.__dict__['rate'] = 0            # at 4
>> *)

Definition shop_heap : gmap loc object :=
  list_to_map
    [ (1, OClass MetaClassProperty [1] {[ "rate" := VRef 2; "me" := VRef 5 ]});
      (2, OClassProperty (VFunc f_answer) (VClassmethod (VFunc f_set_answer)));
      (3, OClass MetaClassProperty [3; 1] ∅);
      (4, OInstance 3 {[ "rate" := VInt 0 ]});
      (5, OClassProperty (VStaticmethod (VFunc f_who)) VNone) ].

Definition shop : state := mkState shop_heap [].

(** The chained definition [class_property(fget).setter(func)]. *)
Definition define_property (fget func : val) : M val :=
  let! p := class_property fget in
  match p with
  | VRef l => ClassProperty_setter l func
  | _ => unsupported
  end.

(** The calls of the log that entered the function [g]. *)
Definition calls_to (g : fid) (l : list (fid * list val)) : list (list val) :=
  snd <$> filter (λ c, c.1 = g) l.

(** What the builder call stores for [func]. *)
Definition stored_setter (func : val) : val :=
  if is_classmethod_or_staticmethod func then func else VClassmethod func.

(** The user code never touches the object at [d]. *)
Definition preserves (funs : fid → pyfunc) (d : loc) : Prop :=
  ∀ g args h, (f_body (funs g) args h).2 !! d = h !! d.

(** * Properties *)

Section Properties.

Variable funs : fid → pyfunc.

Ltac run := unfold bind, ret, raise, unsupported, get_object; simpl.

Lemma get_fget_eq s d fget fset :
  heap s !! d = Some (OClassProperty fget fset) →
  get_fget d s = (Return fget, s).
Proof. intros H. unfold get_fget. run. by rewrite H. Qed.

Lemma get_fset_eq s d fget fset :
  heap s !! d = Some (OClassProperty fget fset) →
  get_fset d s = (Return fset, s).
Proof. intros H. unfold get_fset. run. by rewrite H. Qed.

Lemma type_of_state v s : (type_of v s).2 = s.
Proof.
  destruct v; try reflexivity. unfold type_of. run.
  destruct (heap s !! l) as [[]|]; reflexivity.
Qed.

Lemma type_of_instance s inst c dict :
  heap s !! inst = Some (OInstance c dict) →
  type_of (VRef inst) s = (Return (VRef c), s).
Proof. intros H. unfold type_of. run. by rewrite H. Qed.

Lemma type_of_class s cls m mro dict :
  heap s !! cls = Some (OClass m mro dict) →
  type_of (VRef cls) s = (Return (meta_type m), s).
Proof. intros H. unfold type_of. run. by rewrite H. Qed.

Lemma truthy_state v s : (truthy v s).2 = s.
Proof.
  destruct v; try reflexivity. simpl.
  destruct (heap s !! l) as [[]|]; try reflexivity.
  destruct (type_lookup (heap s) cls "__bool__"),
    (type_lookup (heap s) cls "__len__"); reflexivity.
Qed.


(** The write path of a descriptor whose setter is set. *)
Lemma set_with_setter s d fget fset obj value :
  heap s !! d = Some (OClassProperty fget fset) →
  truthy fset s = (Return true, s) →
  ClassProperty__set__ funs d obj value s =
    (let! klass := type_of obj in
     let! bound := descr_get fset obj klass in
     call funs bound [value]) s.
Proof.
  intros Hd Ht. unfold ClassProperty__set__, bind.
  rewrite (get_fset_eq _ _ _ _ Hd), Ht. cbn [negb].
  pose proof (type_of_state obj s) as Hs.
  destruct (type_of obj s) as [[k| |] s1]; simpl in Hs; subst s1; try done.
  by rewrite (get_fset_eq _ _ _ _ Hd).
Qed.

(** The write path of a descriptor that has no setter. *)
Lemma set_without_setter s d fget obj value :
  heap s !! d = Some (OClassProperty fget VNone) →
  ClassProperty__set__ funs d obj value s =
    (Raise (AttributeError "Can't set attribute."), s).
Proof.
  intros Hd. unfold ClassProperty__set__, bind.
  by rewrite (get_fset_eq _ _ _ _ Hd).
Qed.

(** The read path. *)
Lemma get_unfold s d fget fset obj klass :
  heap s !! d = Some (OClassProperty fget fset) →
  ClassProperty__get__ funs d obj klass s =
    (let! k := effective_class obj klass in
     let! bound := descr_get fget obj k in
     call funs bound [k]) s.
Proof.
  intros Hd. unfold ClassProperty__get__, bind.
  assert (Hs : (effective_class obj klass s).2 = s).
  { destruct klass; try reflexivity. apply type_of_state. }
  destruct (effective_class obj klass s) as [[k| |] s1]; simpl in Hs;
    subst s1; try done.
  by rewrite (get_fget_eq _ _ _ _ Hd).
Qed.

(** The builder call. *)
Lemma setter_eq s d fget fset func :
  heap s !! d = Some (OClassProperty fget fset) →
  ClassProperty_setter d func s =
    (Return (VRef d),
     mkState (<[d := OClassProperty fget (stored_setter func)]> (heap s))
             (log s)).
Proof.
  intros Hd. unfold ClassProperty_setter, set_fset, set_object. run.
  by rewrite Hd.
Qed.

Lemma class_property_eq func s :
  class_property func s =
    (Return (VRef (fresh (dom (heap s)))),
     mkState (<[fresh (dom (heap s)) := OClassProperty func VNone]> (heap s))
             (log s)).
Proof. reflexivity. Qed.





Lemma call_function_preserves d g args s :
  preserves funs d →
  heap (call_function funs g args s).2 !! d = heap s !! d.
Proof.
  intros Hp. unfold call_function. case_decide; [| done].
  specialize (Hp g args (heap s)).
  destruct (f_body (funs g) args (heap s)) as [r h']. exact Hp.
Qed.

Lemma call_preserves d f args s :
  preserves funs d →
  heap (call funs f args s).2 !! d = heap s !! d.
Proof.
  intros Hp. revert args. induction f; intros args; simpl; try done.
  - by apply call_function_preserves.
  - destruct (heap s !! l) as [[]|]; done.
Qed.

Lemma descr_get_state f obj klass s : (descr_get f obj klass s).2 = s.
Proof. destruct f; try reflexivity. destruct obj; reflexivity. Qed.

Lemma effective_class_state obj klass s : (effective_class obj klass s).2 = s.
Proof. destruct klass; try reflexivity. apply type_of_state. Qed.

Lemma bound_call_preserves d f obj k args s :
  preserves funs d →
  heap ((let! bound := descr_get f obj k in call funs bound args) s).2 !! d
  = heap s !! d.
Proof.
  intros Hp. unfold bind.
  pose proof (descr_get_state f obj k s) as Hs.
  destruct (descr_get f obj k s) as [[b| |] s1]; simpl in Hs; subst s1;
    try done.
  by apply call_preserves.
Qed.

(** C9, as the code has it: every builder call overwrites the setter
    field with what it stores for its argument and keeps the getter, so a
    setter can be attached again and again; a read and a write assign
    neither field, and leave the descriptor as it was whenever the getter
    and setter code they run does. *)
Theorem C9_only_builder_changes_descriptor
    (s : state) (d : loc) (fget fset : val) :
  heap s !! d = Some (OClassProperty fget fset) →
  preserves funs d →
  (∀ func,
     heap_of (ClassProperty_setter d func s) !! d =
       Some (OClassProperty fget (stored_setter func)))
  ∧ (∀ obj klass,
       heap_of (ClassProperty__get__ funs d obj klass s) !! d =
         Some (OClassProperty fget fset))
  ∧ (∀ obj value,
       heap_of (ClassProperty__set__ funs d obj value s) !! d =
         Some (OClassProperty fget fset)).
Proof.
  intros Hd Hp. unfold heap_of. repeat split.
  - intros func. rewrite (setter_eq _ _ _ _ _ Hd). cbn [snd heap].
    by rewrite lookup_insert_eq.
  - intros obj klass. rewrite (get_unfold _ _ _ _ _ _ Hd).
    unfold bind at 1.
    pose proof (effective_class_state obj klass s) as Hs.
    destruct (effective_class obj klass s) as [[k| |] s1]; simpl in Hs;
      subst s1; try done.
    by rewrite bound_call_preserves.
  - intros obj value. unfold ClassProperty__set__. unfold bind at 1.
    rewrite (get_fset_eq _ _ _ _ Hd). unfold bind at 1.
    pose proof (truthy_state fset s) as Ht.
    destruct (truthy fset s) as [[[]| |] s1]; simpl in Ht; subst s1;
      try done.
    cbn [negb]. unfold bind at 1.
    pose proof (type_of_state obj s) as Hs.
    destruct (type_of obj s) as [[k| |] s1]; simpl in Hs; subst s1; try done.
    unfold bind at 1. rewrite (get_fset_eq _ _ _ _ Hd).
    by rewrite bound_call_preserves.
Qed.


Lemma call_function_enters g args s :
  length args = f_arity (funs g) →
  call_function funs g args s =
    ((f_body (funs g) args (heap s)).1,
     mkState (f_body (funs g) args (heap s)).2 (log s ++ [(g, args)])).
Proof.
  intros Ha. unfold call_function. rewrite decide_True by done.
  by destruct (f_body (funs g) args (heap s)).
Qed.

(** Reading [cls.key] when the MRO of [cls] has a descriptor under [key]
    is the descriptor's read with no accessing object. *)
Lemma type_getattribute_descriptor s cls m mro dict key d fget fset :
  heap s !! cls = Some (OClass m mro dict) →
  lookup_mro (heap s) mro key = Some (VRef d) →
  heap s !! d = Some (OClassProperty fget fset) →
  type_getattribute funs cls key s =
    ClassProperty__get__ funs d VNone (VRef cls) s.
Proof.
  intros Hc Hl Hd. unfold type_getattribute, bind, get_object.
  rewrite Hc, Hl. unfold invoke_get, bind, get_object. by rewrite Hd.
Qed.

(** C10: on a class of the metaclass, [cls.key = value] over a name
    under which the MRO has a descriptor first runs the descriptor's read
    path with no accessing object, the getter and its side effects
    included: a plain one-parameter getter is entered once with the
    class.  What happens next is decided by the value the getter
    computed, not by the descriptor found in the dictionary: a computed
    value that is itself a descriptor receives the write, any other value
    (or the [None] standing in for an attribute error of the getter)
    leads to the ordinary assignment, and any other exception of the
    getter ends the assignment. *)
Theorem C10_assignment_reads_attribute_first
    (s : state) (cls : loc) (mro : list loc) (dict : gmap string val)
    (key : string) (value : val) (d : loc) (fget fset : val) :
  heap s !! cls = Some (OClass MetaClassProperty mro dict) →
  lookup_mro (heap s) mro key = Some (VRef d) →
  heap s !! d = Some (OClassProperty fget fset) →
  py_setattr funs (VRef cls) key value s =
    match ClassProperty__get__ funs d VNone (VRef cls) s with
    | (Return v, s1) =>
        match as_ClassProperty (heap s1) v with
        | Some d' => ClassProperty__set__ funs d' (VRef cls) value s1
        | None => type_setattr cls key value s1
        end
    | (Raise (AttributeError _), s1) => type_setattr cls key value s1
    | r => r
    end
  ∧ (∀ g, fget = VFunc g → f_arity (funs g) = 1 →
       ClassProperty__get__ funs d VNone (VRef cls) s =
         ((f_body (funs g) [VRef cls] (heap s)).1,
          mkState (f_body (funs g) [VRef cls] (heap s)).2
                  (log s ++ [(g, [VRef cls])]))).
Proof.
  intros Hc Hl Hd. split.
  - unfold py_setattr. unfold bind at 1. unfold get_object at 1. rewrite Hc.
    unfold ClassPropertyMeta__setattr__, bind, getattr_default.
    rewrite (type_getattribute_descriptor _ _ _ _ _ _ _ _ _ Hc Hl Hd).
    destruct (ClassProperty__get__ funs d VNone (VRef cls) s)
      as [[v|[]|] s1]; reflexivity.
  - intros g -> Ha. rewrite (get_unfold _ _ _ _ _ _ Hd).
    unfold bind, effective_class, ret, descr_get. cbn [call].
    by apply call_function_enters.
Qed.

(** Assignment through an instance reaches the descriptor's write path
    with the instance as accessing object. *)
Lemma instance_write_reaches_descriptor s inst c dict name value d fget fset :
  heap s !! inst = Some (OInstance c dict) →
  type_lookup (heap s) c "__setattr__" = None →
  type_lookup (heap s) c name = Some (VRef d) →
  heap s !! d = Some (OClassProperty fget fset) →
  py_setattr funs (VRef inst) name value s =
    ClassProperty__set__ funs d (VRef inst) value s.
Proof.
  intros Hi Hsa Hl Hd.
  unfold py_setattr, bind, get_object. rewrite Hi.
  unfold object_setattr, bind, get_object. rewrite Hi, Hsa, Hl.
  unfold has_set, as_ClassProperty. by rewrite Hd.
Qed.

(** Through an instance, a descriptor without a setter rejects every
    assignment. *)
Lemma instance_write_rejected s inst c dict name value d fget :
  heap s !! inst = Some (OInstance c dict) →
  type_lookup (heap s) c "__setattr__" = None →
  type_lookup (heap s) c name = Some (VRef d) →
  heap s !! d = Some (OClassProperty fget VNone) →
  py_setattr funs (VRef inst) name value s =
    (Raise (AttributeError "Can't set attribute."), s).
Proof.
  intros Hi Hsa Hl Hd.
  rewrite (instance_write_reaches_descriptor _ _ _ _ _ _ _ _ _ Hi Hsa Hl Hd).
  by eapply set_without_setter.
Qed.

(** Read through an instance, a plain function getter is bound to the
    instance and called with the instance and the class. *)
Lemma instance_read_binds_instance s inst c dict name d g fset :
  heap s !! inst = Some (OInstance c dict) →
  type_lookup (heap s) c "__getattribute__" = None →
  type_lookup (heap s) c "__getattr__" = None →
  type_lookup (heap s) c name = Some (VRef d) →
  heap s !! d = Some (OClassProperty (VFunc g) fset) →
  py_getattr funs (VRef inst) name s =
    call_function funs g [VRef inst; VRef c] s.
Proof.
  intros Hi Hga Hg Hl Hd.
  unfold py_getattr, bind, get_object. rewrite Hi.
  unfold object_getattribute, bind, get_object. rewrite Hi, Hga, Hg, Hl.
  unfold has_set. rewrite Hd.
  unfold invoke_get, bind, get_object. rewrite Hd.
  by rewrite (get_unfold _ _ _ _ _ _ Hd).
Qed.

(** On a class of the metaclass, a name that the MRO does not have is
    assigned the ordinary way. *)
Lemma class_write_unoccupied s cls mro dict key value :
  heap s !! cls = Some (OClass MetaClassProperty mro dict) →
  lookup_mro (heap s) mro key = None →
  py_setattr funs (VRef cls) key value s = type_setattr cls key value s.
Proof.
  intros Hc Hl. unfold py_setattr. unfold bind at 1. unfold get_object at 1.
  rewrite Hc. unfold ClassPropertyMeta__setattr__, bind, getattr_default.
  unfold type_getattribute, bind, get_object. by rewrite Hc, Hl.
Qed.

(** So is a name under which the MRO has an integer or [None]. *)
Lemma class_write_plain_value s cls mro dict key value v :
  heap s !! cls = Some (OClass MetaClassProperty mro dict) →
  lookup_mro (heap s) mro key = Some v →
  (v = VNone ∨ ∃ z, v = VInt z) →
  py_setattr funs (VRef cls) key value s = type_setattr cls key value s.
Proof.
  intros Hc Hl Hv. unfold py_setattr. unfold bind at 1.
  unfold get_object at 1.
  rewrite Hc. unfold ClassPropertyMeta__setattr__, bind, getattr_default.
  unfold type_getattribute, bind, get_object. rewrite Hc, Hl.
  destruct Hv as [-> | [z ->]]; reflexivity.
Qed.

(** On a class of the metaclass, assignment over a descriptor whose
    one-parameter getter computes anything but a descriptor and leaves
    the heap alone puts the value in the class's own dictionary, whatever
    setter the descriptor has. *)
Lemma class_write_overwrites s cls mro dict key value d g fset v :
  heap s !! cls = Some (OClass MetaClassProperty mro dict) →
  lookup_mro (heap s) mro key = Some (VRef d) →
  heap s !! d = Some (OClassProperty (VFunc g) fset) →
  f_arity (funs g) = 1 →
  f_body (funs g) [VRef cls] (heap s) = (Return v, heap s) →
  as_ClassProperty (heap s) v = None →
  py_setattr funs (VRef cls) key value s =
    (Return VNone,
     mkState (<[cls := OClass MetaClassProperty mro (<[key := value]> dict)]>
                (heap s))
             (log s ++ [(g, [VRef cls])])).
Proof.
  intros Hc Hl Hd Ha Hb Hv.
  unfold py_setattr. unfold bind at 1. unfold get_object at 1. rewrite Hc.
  unfold ClassPropertyMeta__setattr__, bind, getattr_default.
  rewrite (type_getattribute_descriptor _ _ _ _ _ _ _ _ _ Hc Hl Hd).
  rewrite (get_unfold _ _ _ _ _ _ Hd).
  unfold effective_class, descr_get, bind, ret. cbn [call].
  rewrite call_function_enters by done. rewrite Hb. cbn [fst snd heap].
  rewrite Hv. unfold type_setattr, bind, get_object, set_object, ret.
  cbn [heap log]. by rewrite Hc.
Qed.

End Properties.

(** * The program at work *)

(** C1: [C.prop = 7], with [prop] a descriptor that has a getter and a
    setter and [C] a class of the metaclass, returns normally having run
    the getter only; the entry [prop] of the class, the descriptor
    before, is the integer afterwards. *)
Theorem C1_class_assignment_replaces_descriptor :
  let r := py_setattr demo_funs (VRef 1) "prop" (VInt 7) demo in
  class_entry demo_heap 1 "prop" = Some (VRef 2)
  ∧ as_ClassProperty demo_heap (VRef 2) = Some 2
  ∧ outcome_of r = Return VNone
  ∧ log_of r = [(f_answer, [VRef 1])]
  ∧ class_entry (heap_of r) 1 "prop" = Some (VInt 7).
Proof. vm_compute. repeat split; reflexivity. Qed.

(** C2: with [ro] a descriptor that has no setter, [d.ro = 7] on an
    instance raises the attribute error, and [D.ro = 7] on the class
    raises nothing: it returns normally and puts the integer in the
    descriptor's place. *)
Theorem C2_class_assignment_to_getter_only_succeeds :
  let on_instance := py_setattr demo_funs (VRef 6) "ro" (VInt 7) demo in
  let on_class := py_setattr demo_funs (VRef 4) "ro" (VInt 7) demo in
  get_fset 5 demo = (Return VNone, demo)
  ∧ outcome_of on_instance = Raise (AttributeError "Can't set attribute.")
  ∧ outcome_of on_class = Return VNone
  ∧ class_entry demo_heap 4 "ro" = Some (VRef 5)
  ∧ class_entry (heap_of on_class) 4 "ro" = Some (VInt 7).
Proof. vm_compute. repeat split; reflexivity. Qed.

(** C4: [C.prop = 7] never enters the setter.  When the write path is
    reached with the class as accessing object, directly or because the
    getter of [E.sh] computes a descriptor, the setter is entered once
    with the metaclass, not the class, in front of the value. *)
Theorem C4_class_assignment_skips_setter :
  let assign := py_setattr demo_funs (VRef 1) "prop" (VInt 7) demo in
  let direct := ClassProperty__set__ demo_funs 2 (VRef 1) (VInt 7) demo in
  let routed := py_setattr demo_funs (VRef 9) "sh" (VInt 7) demo in
  get_fset 2 demo = (Return (VClassmethod (VFunc f_set_answer)), demo)
  ∧ calls_to f_set_answer (log_of assign) = []
  ∧ calls_to f_set_answer (log_of direct) = [[VType ClassPropertyMeta_t; VInt 7]]
  ∧ calls_to f_set_answer (log_of routed) = [[VType ClassPropertyMeta_t; VInt 7]].
Proof. vm_compute. repeat split; reflexivity. Qed.

(** C6: with [ro] a descriptor over the one-parameter getter [answer],
    [D.ro] is 42, and [d.ro] on an instance of [D] is no value: the
    getter, bound to the instance and given the class as a second
    argument, is never entered and the read raises a type error. *)
Theorem C6_instance_read_differs_from_class_read :
  let on_class := py_getattr demo_funs (VRef 4) "ro" demo in
  let on_instance := py_getattr demo_funs (VRef 6) "ro" demo in
  outcome_of on_class = Return (VInt 42)
  ∧ log_of on_class = [(f_answer, [VRef 4])]
  ∧ on_instance = call_function demo_funs f_answer [VRef 6; VRef 4] demo
  ∧ outcome_of on_instance =
      Raise (TypeError "wrong number of positional arguments")
  ∧ log_of on_instance = [].
Proof. vm_compute. repeat split; reflexivity. Qed.


(** C9 fails as stated: a second builder call on a descriptor that has a
    setter attached replaces the stored setter. *)
Lemma C9_counterexample :
  let s1 := (ClassProperty_setter 5 (VFunc f_set_answer) demo).2 in
  let s2 := (ClassProperty_setter 5 (VFunc f_set_other) s1).2 in
  outcome_of (get_fset 5 s1) = Return (VClassmethod (VFunc f_set_answer))
  ∧ outcome_of (get_fset 5 s2) = Return (VClassmethod (VFunc f_set_other))
  ∧ heap s2 !! 5 ≠ heap s1 !! 5.
Proof.
  repeat split; try (vm_compute; reflexivity).
  vm_compute. discriminate.
Qed.

(** * The theorems at the program *)

Lemma demo_funs_preserve d : preserves demo_funs d.
Proof.
  intros g args h.
  do 5 (destruct g as [|g]; [reflexivity |]). reflexivity.
Defined.





Lemma C9_witness :
  heap demo !! 2 =
    Some (OClassProperty (VFunc f_answer) (VClassmethod (VFunc f_set_answer)))
  ∧ preserves demo_funs 2
  ∧ heap_of (ClassProperty_setter 2 (VFunc f_set_other) demo) !! 2 =
      Some (OClassProperty (VFunc f_answer)
              (stored_setter (VFunc f_set_other))).
Proof.
  split; [vm_compute; reflexivity |].
  split; [apply demo_funs_preserve |].
  apply (C9_only_builder_changes_descriptor demo_funs demo 2
           (VFunc f_answer) (VClassmethod (VFunc f_set_answer)));
    [vm_compute; reflexivity | apply demo_funs_preserve].
Defined.

Lemma C10_witness :
  heap demo !! 9 = Some (OClass MetaClassProperty [9] {[ "sh" := VRef 10 ]})
  ∧ lookup_mro (heap demo) [9] "sh" = Some (VRef 10)
  ∧ heap demo !! 10 = Some (OClassProperty (VFunc f_shadow) VNone)
  ∧ (f_arity (demo_funs f_shadow) = 1 →
     ClassProperty__get__ demo_funs 10 VNone (VRef 9) demo =
       ((f_body (demo_funs f_shadow) [VRef 9] (heap demo)).1,
        mkState (f_body (demo_funs f_shadow) [VRef 9] (heap demo)).2
                (log demo ++ [(f_shadow, [VRef 9])]))).
Proof.
  split; [vm_compute; reflexivity |].
  split; [vm_compute; reflexivity |].
  split; [vm_compute; reflexivity |].
  intros Ha.
  apply (C10_assignment_reads_attribute_first demo_funs demo 9 [9]
           {[ "sh" := VRef 10 ]} "sh" (VInt 7) 10 (VFunc f_shadow) VNone);
    [vm_compute; reflexivity .. | reflexivity | exact Ha].
Defined.

(** * Further properties of the descriptor and the metaclass *)

Section Further.

Variable funs : fid → pyfunc.


(** X2: the chained definition [class_property(fget).setter(func)]
    returns the new descriptor itself, holding [fget] and what the
    builder stores for [func]; it costs no call of user code. *)
Theorem X2_chained_definition (fget func : val) (s : state) :
  ∃ d,
    heap s !! d = None
    ∧ define_property fget func s =
        (Return (VRef d),
         mkState (<[d := OClassProperty fget (stored_setter func)]> (heap s))
                 (log s)).
Proof.
  exists (fresh (dom (heap s))). split.
  { apply not_elem_of_dom, is_fresh. }
  unfold define_property, bind. rewrite class_property_eq.
  erewrite setter_eq; [| cbn [heap]; apply lookup_insert_eq].
  cbn [heap log]. by rewrite insert_insert_eq.
Qed.

(** Reading [cls.key] over a descriptor found along the MRO. *)
Lemma class_read_descriptor s cls m mro dict key d fget fset :
  heap s !! cls = Some (OClass m mro dict) →
  lookup_mro (heap s) mro key = Some (VRef d) →
  heap s !! d = Some (OClassProperty fget fset) →
  py_getattr funs (VRef cls) key s =
    (let! bound := descr_get fget VNone (VRef cls) in
     call funs bound [VRef cls]) s.
Proof.
  intros Hc Hl Hd. unfold py_getattr. unfold bind at 1.
  unfold get_object at 1. rewrite Hc.
  rewrite (type_getattribute_descriptor funs _ _ _ _ _ _ _ _ _ Hc Hl Hd).
  by rewrite (get_unfold funs _ _ _ _ _ _ Hd).
Qed.

(** X3: reading [cls.key], whatever the metaclass of [cls], over a
    descriptor found anywhere along the MRO hands the getter the class
    the attribute is read from, not the class that defines it: a plain
    function and a staticmethod's function get it as their only
    argument, a classmethod's function gets it twice; a getter that is
    [None] or an integer makes the read an attribute error with no user
    code run. *)
Theorem X3_class_read_passes_accessed_class
    (s : state) (cls : loc) (m : metaclass) (mro : list loc)
    (dict : gmap string val) (key : string) (d : loc) (fget fset : val) :
  heap s !! cls = Some (OClass m mro dict) →
  lookup_mro (heap s) mro key = Some (VRef d) →
  heap s !! d = Some (OClassProperty fget fset) →
  (∀ g, fget = VFunc g →
     py_getattr funs (VRef cls) key s = call_function funs g [VRef cls] s)
  ∧ (∀ g, fget = VStaticmethod (VFunc g) →
       py_getattr funs (VRef cls) key s = call_function funs g [VRef cls] s)
  ∧ (∀ g, fget = VClassmethod (VFunc g) →
       py_getattr funs (VRef cls) key s =
         call_function funs g [VRef cls; VRef cls] s)
  ∧ (fget = VNone ∨ (∃ z, fget = VInt z) →
       ∃ msg, py_getattr funs (VRef cls) key s = (Raise (AttributeError msg), s)).
Proof.
  intros Hc Hl Hd.
  rewrite (class_read_descriptor _ _ _ _ _ _ _ _ _ Hc Hl Hd).
  repeat split.
  - by intros g ->.
  - by intros g ->.
  - by intros g ->.
  - intros [-> | [z ->]]; eexists; reflexivity.
Qed.

(** X4: [inst.name = value] over a descriptor of the instance's class
    never stores into the instance, whatever its own dictionary holds
    under the name: a setter stored as a classmethod is called with the
    class of the instance and the value, one stored as a staticmethod
    with the value alone, and a setter field of [None] or [0] gives the
    attribute error with nothing changed. *)
Theorem X4_instance_write_goes_to_setter
    (s : state) (inst c : loc) (dict : gmap string val) (name : string)
    (value : val) (d : loc) (fget fset : val) :
  heap s !! inst = Some (OInstance c dict) →
  type_lookup (heap s) c "__setattr__" = None →
  type_lookup (heap s) c name = Some (VRef d) →
  heap s !! d = Some (OClassProperty fget fset) →
  (∀ g, fset = VClassmethod (VFunc g) →
     py_setattr funs (VRef inst) name value s =
       call_function funs g [VRef c; value] s)
  ∧ (∀ g, fset = VStaticmethod (VFunc g) →
       py_setattr funs (VRef inst) name value s =
         call_function funs g [value] s)
  ∧ (fset = VNone ∨ fset = VInt 0 →
       py_setattr funs (VRef inst) name value s =
         (Raise (AttributeError "Can't set attribute."), s)).
Proof.
  intros Hi Hsa Hl Hd.
  rewrite (instance_write_reaches_descriptor funs _ _ _ _ _ _ _ _ _
             Hi Hsa Hl Hd).
  repeat split.
  - intros g ->. rewrite (set_with_setter funs _ _ _ _ _ _ Hd) by done.
    unfold bind. by rewrite (type_of_instance _ _ _ _ Hi).
  - intros g ->. rewrite (set_with_setter funs _ _ _ _ _ _ Hd) by done.
    unfold bind. by rewrite (type_of_instance _ _ _ _ Hi).
  - intros Hf. unfold ClassProperty__set__, bind.
    rewrite (get_fset_eq _ _ _ _ Hd). by destruct Hf as [-> | ->].
Qed.

(** X5: builder calls compose by the last one winning: attaching [f1]
    and then [f2] leaves the state that attaching [f2] alone leaves.
    What the builder stores is stored unchanged when given again, so
    attaching the stored setter once more changes nothing. *)
Theorem X5_last_builder_call_wins
    (s : state) (d : loc) (fget fset f1 f2 : val) :
  heap s !! d = Some (OClassProperty fget fset) →
  (let! _ := ClassProperty_setter d f1 in ClassProperty_setter d f2) s =
    ClassProperty_setter d f2 s
  ∧ stored_setter (stored_setter f1) = stored_setter f1
  ∧ (fset = stored_setter f1 →
     ClassProperty_setter d fset s = (Return (VRef d), s)).
Proof.
  intros Hd. repeat split.
  - unfold bind. rewrite (setter_eq _ _ _ _ f1 Hd).
    erewrite setter_eq; [| cbn [heap]; apply lookup_insert_eq].
    rewrite (setter_eq _ _ _ _ f2 Hd). cbn [heap log].
    by rewrite insert_insert_eq.
  - by destruct f1.
  - intros ->. rewrite (setter_eq _ _ _ _ _ Hd).
    assert (Hst : stored_setter (stored_setter f1) = stored_setter f1)
      by by destruct f1.
    rewrite Hst, (insert_id _ _ _ Hd). by destruct s.
Qed.

(** X6: on a class of the metaclass whose MRO starts with the class
    itself, once [cls.key = value] has gone over a descriptor whose
    getter computes no descriptor, [cls.key] reads [value] back from the
    class's own dictionary without entering the getter again; the
    descriptor object itself is still in the heap, unchanged. *)
Theorem X6_class_assignment_then_read
    (s : state) (cls : loc) (rest : list loc) (dict : gmap string val)
    (key : string) (value : val) (d : loc) (g : fid) (fset v : val) :
  heap s !! cls = Some (OClass MetaClassProperty (cls :: rest) dict) →
  lookup_mro (heap s) (cls :: rest) key = Some (VRef d) →
  heap s !! d = Some (OClassProperty (VFunc g) fset) →
  f_arity (funs g) = 1 →
  f_body (funs g) [VRef cls] (heap s) = (Return v, heap s) →
  as_ClassProperty (heap s) v = None →
  (value = VNone ∨ ∃ z, value = VInt z) →
  let s' := (py_setattr funs (VRef cls) key value s).2 in
  py_getattr funs (VRef cls) key s' = (Return value, s')
  ∧ log s' = (log s ++ [(g, [VRef cls])])%list
  ∧ heap s' !! d = Some (OClassProperty (VFunc g) fset).
Proof.
  intros Hc Hl Hd Ha Hb Hv Hval s'. subst s'.
  rewrite (class_write_overwrites funs _ _ _ _ _ _ _ _ _ _
             Hc Hl Hd Ha Hb Hv).
  cbn [snd]. remember (mkState _ _) as s1 eqn:Hs1.
  assert (Hc1 : heap s1 !! cls =
            Some (OClass MetaClassProperty (cls :: rest) (<[key := value]> dict))).
  { rewrite Hs1. cbn [heap]. apply lookup_insert_eq. }
  repeat split.
  - unfold py_getattr. unfold bind at 1. unfold get_object at 1. rewrite Hc1.
    unfold type_getattribute. unfold bind at 1. unfold get_object at 1.
    rewrite Hc1. cbn [lookup_mro]. rewrite Hc1, lookup_insert_eq.
    destruct Hval as [-> | [z ->]]; reflexivity.
  - by rewrite Hs1.
  - rewrite Hs1. cbn [heap]. rewrite lookup_insert_ne; [done |].
    intros ->. rewrite Hc in Hd. discriminate.
Qed.

(** X7: a write whose accessing object is a class object takes the
    class of that object, its metaclass, for the receiver: a setter
    stored as a classmethod is called with the metaclass and the value. *)
Theorem X7_write_on_class_object_binds_metaclass
    (s : state) (d : loc) (fget : val) (g : fid) (cls : loc)
    (m : metaclass) (mro : list loc) (dict : gmap string val) (value : val) :
  heap s !! d = Some (OClassProperty fget (VClassmethod (VFunc g))) →
  heap s !! cls = Some (OClass m mro dict) →
  ClassProperty__set__ funs d (VRef cls) value s =
    call_function funs g [meta_type m; value] s.
Proof.
  intros Hd Hc. rewrite (set_with_setter funs _ _ _ _ _ _ Hd) by done.
  unfold bind. by rewrite (type_of_class _ _ _ _ _ Hc).
Qed.

(** X8: with a staticmethod for getter, reading the attribute from an
    instance and reading it from the instance's class are the same
    computation, the getter's function called with the class alone,
    whatever the instance's own dictionary holds under the name. *)
Theorem X8_staticmethod_getter_reads_agree
    (s : state) (inst c : loc) (dict : gmap string val) (name : string)
    (m : metaclass) (mro : list loc) (cdict : gmap string val)
    (d : loc) (g : fid) (fset : val) :
  heap s !! inst = Some (OInstance c dict) →
  heap s !! c = Some (OClass m mro cdict) →
  type_lookup (heap s) c "__getattribute__" = None →
  type_lookup (heap s) c "__getattr__" = None →
  lookup_mro (heap s) mro name = Some (VRef d) →
  heap s !! d = Some (OClassProperty (VStaticmethod (VFunc g)) fset) →
  py_getattr funs (VRef inst) name s = py_getattr funs (VRef c) name s
  ∧ py_getattr funs (VRef inst) name s = call_function funs g [VRef c] s.
Proof.
  intros Hi Hc Hga Hg Hl Hd.
  assert (Hinst : py_getattr funs (VRef inst) name s =
                  call_function funs g [VRef c] s).
  { assert (Htl : type_lookup (heap s) c name = Some (VRef d)).
    { unfold type_lookup. by rewrite Hc. }
    unfold py_getattr, bind, get_object. rewrite Hi.
    unfold object_getattribute, bind, get_object. rewrite Hi, Hga, Hg, Htl.
    unfold has_set. rewrite Hd.
    unfold invoke_get, bind, get_object. rewrite Hd.
    by rewrite (get_unfold funs _ _ _ _ _ _ Hd). }
  split; [| exact Hinst].
  rewrite Hinst.
  by rewrite (class_read_descriptor _ _ _ _ _ _ _ _ _ Hc Hl Hd).
Qed.

End Further.

Lemma X3_witness :
  heap shop !! 3 = Some (OClass MetaClassProperty [3; 1] ∅)
  ∧ lookup_mro (heap shop) [3; 1] "rate" = Some (VRef 2)
  ∧ heap shop !! 2 =
      Some (OClassProperty (VFunc f_answer) (VClassmethod (VFunc f_set_answer)))
  ∧ py_getattr demo_funs (VRef 3) "rate" shop =
      call_function demo_funs f_answer [VRef 3] shop.
Proof.
  split; [vm_compute; reflexivity |].
  split; [vm_compute; reflexivity |].
  split; [vm_compute; reflexivity |].
  destruct (X3_class_read_passes_accessed_class demo_funs shop 3
              MetaClassProperty [3; 1] ∅ "rate" 2 (VFunc f_answer)
              (VClassmethod (VFunc f_set_answer))) as [H _];
    [vm_compute; reflexivity .. | exact (H f_answer eq_refl)].
Defined.

Lemma X4_witness :
  heap shop !! 4 = Some (OInstance 3 {[ "rate" := VInt 0 ]})
  ∧ type_lookup (heap shop) 3 "__setattr__" = None
  ∧ type_lookup (heap shop) 3 "rate" = Some (VRef 2)
  ∧ heap shop !! 2 =
      Some (OClassProperty (VFunc f_answer) (VClassmethod (VFunc f_set_answer)))
  ∧ py_setattr demo_funs (VRef 4) "rate" (VInt 7) shop =
      call_function demo_funs f_set_answer [VRef 3; VInt 7] shop.
Proof.
  split; [vm_compute; reflexivity |].
  split; [vm_compute; reflexivity |].
  split; [vm_compute; reflexivity |].
  split; [vm_compute; reflexivity |].
  destruct (X4_instance_write_goes_to_setter demo_funs shop 4 3
              {[ "rate" := VInt 0 ]} "rate" (VInt 7) 2 (VFunc f_answer)
              (VClassmethod (VFunc f_set_answer))) as [H _];
    [vm_compute; reflexivity .. | exact (H f_set_answer eq_refl)].
Defined.

Lemma X5_witness :
  heap shop !! 2 =
    Some (OClassProperty (VFunc f_answer) (VClassmethod (VFunc f_set_answer)))
  ∧ (let! _ := ClassProperty_setter 2 (VFunc f_set_other) in
     ClassProperty_setter 2 (VStaticmethod (VFunc f_set_answer))) shop =
    ClassProperty_setter 2 (VStaticmethod (VFunc f_set_answer)) shop.
Proof.
  split; [vm_compute; reflexivity |].
  destruct (X5_last_builder_call_wins shop 2 (VFunc f_answer)
              (VClassmethod (VFunc f_set_answer)) (VFunc f_set_other)
              (VStaticmethod (VFunc f_set_answer))) as [H _];
    [vm_compute; reflexivity | exact H].
Defined.

Lemma X6_witness :
  heap shop !! 3 = Some (OClass MetaClassProperty [3; 1] ∅)
  ∧ lookup_mro (heap shop) [3; 1] "rate" = Some (VRef 2)
  ∧ heap shop !! 2 =
      Some (OClassProperty (VFunc f_answer) (VClassmethod (VFunc f_set_answer)))
  ∧ f_arity (demo_funs f_answer) = 1
  ∧ f_body (demo_funs f_answer) [VRef 3] (heap shop) =
      (Return (VInt 42), heap shop)
  ∧ as_ClassProperty (heap shop) (VInt 42) = None
  ∧ py_getattr demo_funs (VRef 3) "rate"
      (py_setattr demo_funs (VRef 3) "rate" (VInt 7) shop).2 =
    (Return (VInt 7), (py_setattr demo_funs (VRef 3) "rate" (VInt 7) shop).2).
Proof.
  split; [vm_compute; reflexivity |].
  split; [vm_compute; reflexivity |].
  split; [vm_compute; reflexivity |].
  split; [reflexivity |].
  split; [reflexivity |].
  split; [reflexivity |].
  destruct (X6_class_assignment_then_read demo_funs shop 3 [1] ∅ "rate"
              (VInt 7) 2 f_answer (VClassmethod (VFunc f_set_answer))
              (VInt 42)) as [H _];
    [vm_compute; reflexivity .. | | exact H].
  right. exists 7%Z. reflexivity.
Defined.

Lemma X7_witness :
  heap shop !! 2 =
    Some (OClassProperty (VFunc f_answer) (VClassmethod (VFunc f_set_answer)))
  ∧ heap shop !! 1 =
      Some (OClass MetaClassProperty [1] {[ "rate" := VRef 2; "me" := VRef 5 ]})
  ∧ ClassProperty__set__ demo_funs 2 (VRef 1) (VInt 7) shop =
      call_function demo_funs f_set_answer
        [VType ClassPropertyMeta_t; VInt 7] shop.
Proof.
  split; [vm_compute; reflexivity |].
  split; [vm_compute; reflexivity |].
  apply (X7_write_on_class_object_binds_metaclass demo_funs shop 2
           (VFunc f_answer) f_set_answer 1 MetaClassProperty [1]
           {[ "rate" := VRef 2; "me" := VRef 5 ]} (VInt 7));
    vm_compute; reflexivity.
Defined.

Lemma X8_witness :
  heap shop !! 4 = Some (OInstance 3 {[ "rate" := VInt 0 ]})
  ∧ heap shop !! 3 = Some (OClass MetaClassProperty [3; 1] ∅)
  ∧ type_lookup (heap shop) 3 "__getattribute__" = None
  ∧ type_lookup (heap shop) 3 "__getattr__" = None
  ∧ lookup_mro (heap shop) [3; 1] "me" = Some (VRef 5)
  ∧ heap shop !! 5 = Some (OClassProperty (VStaticmethod (VFunc f_who)) VNone)
  ∧ py_getattr demo_funs (VRef 4) "me" shop =
      py_getattr demo_funs (VRef 3) "me" shop.
Proof.
  split; [vm_compute; reflexivity |].
  split; [vm_compute; reflexivity |].
  split; [vm_compute; reflexivity |].
  split; [vm_compute; reflexivity |].
  split; [vm_compute; reflexivity |].
  split; [vm_compute; reflexivity |].
  destruct (X8_staticmethod_getter_reads_agree demo_funs shop 4 3
              {[ "rate" := VInt 0 ]} "me" MetaClassProperty [3; 1] ∅ 5 f_who
              VNone) as [H _];
    [vm_compute; reflexivity .. | exact H].
Defined.
